(** * Harwich borehole dashboard: the lithology pane of [streamlit_app.py]

    A shallow embedding of the script's data tables, of the pandas and
    matplotlib calls it makes, and of the pane it renders for a selection,
    followed by the properties of that pane.

    Numbers are binary64 floats, as in the pandas columns ([LOCA_GL],
    [TOP_BG] and [BASE_BG] are all [float64] columns). *)

From stdpp Require Import base option list gmap strings.
From Stdlib Require Import ZArith Floats Sorted Permutation.

Set Warnings "-inexact-float".
#[local] Open Scope string_scope.
#[local] Open Scope list_scope.

(** ** 1. Sample data *)

Module Loca.
Record row := mk
  { LOCA_ID : string; LOCA_GL : float; EASTING : Z; NORTHING : Z }.
End Loca.

Module Litho.
Record row := mk
  { LOCA_ID : string; TOP_BG : float; BASE_BG : float;
    GEOL_CODE : string; GEOL_DESC : string }.
End Litho.

Definition loca_data : list Loca.row :=
  [ Loca.mk "BH01" 50.0 551000 180000;
    Loca.mk "BH02" 48.5 552000 180500;
    Loca.mk "BH03" 46.0 551500 181000 ].

Definition litho_data : list Litho.row :=
  [ Litho.mk "BH01" 0 1 "HWH_CLAY" "Harwich Formation silty clay";
    Litho.mk "BH01" 1 3 "HWH_SILTSTONE" "Harwich siltstone";
    Litho.mk "BH01" 3 5 "LONDON_CLAY" "London Clay very stiff";
    Litho.mk "BH02" 0 2 "HWH_CLAY" "Harwich Formation silty clay";
    Litho.mk "BH02" 2 3.5 "LONDON_CLAY" "London Clay sandy";
    Litho.mk "BH03" 0 1.2 "HWH_CLAY" "Harwich Formation silty clay";
    Litho.mk "BH03" 1.2 4.0 "LONDON_CLAY" "London Clay laminated" ].

(** ** 2. Colour mapping for formations *)

Definition formation_colors : gmap string string :=
  <["HWH_CLAY" := "#e377c2"]>
    (<["HWH_SILTSTONE" := "#17becf"]>
       (<["LONDON_CLAY" := "#bcbd22"]> ∅)).

Definition default_color : string := "#cccccc".

(** [dict.get(key, default)] *)
Definition dict_get (d : gmap string string) (k dflt : string) : string :=
  default dflt (d !! k).

(** ** 3. Coordinate transformation

    The projection itself is pyproj's; the script only swaps the pair it
    returns ([always_xy] gives longitude first). *)

Section Transform.
Variable transform : Z -> Z -> float * float.

Definition grid_to_latlon (easting northing : Z) : float * float :=
  let '(lon, lat) := transform easting northing in (lat, lon).
End Transform.

(** ** 4. Exceptions *)

Inductive exn := IndexError | KeyError | ValueError.

Inductive result (A : Type) :=
| Ok (a : A)
| Raise (e : exn).
Arguments Ok {A} a.
Arguments Raise {A} e.

#[global] Instance result_ret : MRet result := fun _ a => Ok a.

#[global] Instance result_bind : MBind result := fun _ _ k m =>
  match m with
  | Ok a => k a
  | Raise e => Raise e
  end.

(** ** 5. The pandas calls the script makes *)

(** [df.iloc[0]]: the first row, [IndexError] on an empty frame. *)
Definition iloc0 {A} (df : list A) : result A :=
  match df with
  | [] => Raise IndexError
  | r :: _ => Ok r
  end.

(** [df['LOCA_ID']] on a frame made by [pd.DataFrame(rows)]: made from no
    rows the frame has no column at all, and reading one raises
    [KeyError]. *)
Definition getitem {A} (df : list A) : result (list A) :=
  match df with
  | [] => Raise KeyError
  | _ :: _ => Ok df
  end.

(** [df.empty] *)
Definition empty_df {A} (df : list A) : bool :=
  match df with
  | [] => true
  | _ :: _ => false
  end.

Definition top_leb (a b : Litho.row) : bool :=
  (Litho.TOP_BG a <=? Litho.TOP_BG b)%float.

(** Insertion in front of the first row whose key is not smaller: the
    sort is the insertion sort numpy's [argsort] runs on short arrays. *)
Fixpoint insert_row (r : Litho.row) (l : list Litho.row) : list Litho.row :=
  match l with
  | [] => [r]
  | h :: t => if top_leb r h then r :: h :: t else h :: insert_row r t
  end.

Fixpoint isort (l : list Litho.row) : list Litho.row :=
  match l with
  | [] => []
  | r :: t => insert_row r (isort t)
  end.

Definition isna (r : Litho.row) : bool := is_nan (Litho.TOP_BG r).

(** [df.sort_values(by='TOP_BG')]: ascending, rows whose key is NaN last
    ([na_position='last']), in their original order.  pandas does not
    fix the order of rows with equal keys; the insertion sort keeps
    their table order. *)
Definition sort_values (df : list Litho.row) : list Litho.row :=
  isort (List.filter (fun r => negb (isna r)) df) ++ List.filter isna df.

(** [series.min()]: the least value, NaN skipped; NaN when nothing is left. *)
Definition fmin (x acc : float) : float :=
  if (x <? acc)%float then x else acc.

Definition series_min (s : list float) : float :=
  match List.filter (fun x => negb (is_nan x)) s with
  | [] => nan
  | x :: t => fold_left (fun acc y => fmin y acc) t x
  end.

(** A frame as it is displayed: column names and rows of cells. *)
Inductive cell :=
| Str (s : string)
| Num (x : float).

Record DataFrame := mkDataFrame
  { columns : list string; data : list (list cell) }.

Definition litho_columns : list string :=
  ["LOCA_ID"; "TOP_BG"; "BASE_BG"; "GEOL_CODE"; "GEOL_DESC"].

Definition litho_cells (r : Litho.row) : list cell :=
  [ Str (Litho.LOCA_ID r); Num (Litho.TOP_BG r); Num (Litho.BASE_BG r);
    Str (Litho.GEOL_CODE r); Str (Litho.GEOL_DESC r) ].

Definition to_frame (rows : list Litho.row) : DataFrame :=
  {| columns := litho_columns; data := map litho_cells rows |}.

(** [df[name] = values] for a name the frame does not have yet: the new
    column goes last. *)
Definition assign_column (name : string) (values : list float)
    (df : DataFrame) : DataFrame :=
  {| columns := columns df ++ [name];
     data := zip_with (fun r v => r ++ [Num v]) (data df) values |}.

Fixpoint index_of (name : string) (cols : list string) : option nat :=
  match cols with
  | [] => None
  | c :: t => if String.eqb c name then Some 0 else S <$> index_of name t
  end.

(** One displayed row of [df[[names]]]. *)
Fixpoint select_row (cols names : list string) (r : list cell)
    : result (list cell) :=
  match names with
  | [] => Ok []
  | n :: t =>
      match index_of n cols ≫= (fun i => r !! i) with
      | None => Raise KeyError
      | Some c => cs ← select_row cols t r; Ok (c :: cs)
      end
  end.

Fixpoint select_rows (cols names : list string) (rows : list (list cell))
    : result (list (list cell)) :=
  match rows with
  | [] => Ok []
  | r :: t =>
      c ← select_row cols names r;
      cs ← select_rows cols names t;
      Ok (c :: cs)
  end.

(** [df[[names]]] for a frame whose column labels are distinct:
    [KeyError] when a name is not a column. *)
Definition select (names : list string) (df : DataFrame) : result DataFrame :=
  match list_find (fun n => index_of n (columns df) = None) names with
  | Some _ => Raise KeyError
  | None =>
      rows ← select_rows (columns df) names (data df);
      Ok {| columns := names; data := rows |}
  end.

(** ** 6. The matplotlib calls the script makes *)

Record Rectangle := mkRectangle
  { xy : float * float; width : float; height : float;
    facecolor : string; edgecolor : string }.

(** The calls made on the axes [ax], in the order the script makes them.
    [ax_text] leaves out the constant style arguments. *)
Inductive AxCall :=
| add_patch (r : Rectangle)
| ax_text (x y : float) (s : string)
| set_ylim (bottom top : float)
| set_xlim (left right : float)
| invert_yaxis
| set_xticks (ticks : list float)
| set_ylabel (s : string).

(** [ax.set_ylim(bottom, top)] refuses limits that are NaN or infinite.
    What matplotlib does with limits it widens (see [widened]) is left
    out. *)
Definition checked_ylim (bottom top : float) : result AxCall :=
  if is_finite bottom && is_finite top then Ok (set_ylim bottom top)
  else Raise ValueError.

(** What the axis shows after a sequence of calls: the pair (value at the
    bottom edge, value at the top edge), from matplotlib's default (0, 1),
    for limits matplotlib keeps as they are given (see [widened]).
    [invert_yaxis] is [set_inverted(not get_inverted())], which orders
    the current limits with [sorted(..., reverse=inverted)]. *)
Definition get_inverted (v : float * float) : bool :=
  (snd v <? fst v)%float.

Definition sorted2 (reverse : bool) (v : float * float) : float * float :=
  let '(a, b) := v in
  if reverse then (if (a <? b)%float then (b, a) else (a, b))
  else (if (b <? a)%float then (b, a) else (a, b)).

Definition set_inverted (inverted : bool) (v : float * float) : float * float :=
  sorted2 inverted v.

Definition apply_call (v : float * float) (c : AxCall) : float * float :=
  match c with
  | set_ylim bottom top => (bottom, top)
  | invert_yaxis => set_inverted (negb (get_inverted v)) v
  | _ => v
  end.

Definition get_ylim (calls : list AxCall) : float * float :=
  fold_left apply_call calls (0, 1)%float.

(** ** 7. The Streamlit calls of the left column *)

Inductive StCall :=
| subheader (s : string)
| selectbox (label : string) (options : list string) (index : nat)
| pyplot (fig : list AxCall)
| markdown (s : string)
| dataframe (df : DataFrame) (hide_index : bool)
| info (s : string).

Definition selectbox_label : string :=
  "Select a borehole for lithology detail (or click marker label on map):".
Definition no_data_message : string :=
  "No lithology data available for this location.".
Definition prompt_message : string :=
  "_Select a point on the map or choose from the dropdown to see lithology details._".

(** The options of the selection control. *)
Definition options (loca_df : list Loca.row) : list string :=
  "" :: map Loca.LOCA_ID loca_df.

(** Truth value of a Python string. *)
Definition truthy (s : string) : bool :=
  match s with
  | EmptyString => false
  | String _ _ => true
  end.

(** [loca_df[loca_df['LOCA_ID'] == selected_id]] *)
Definition loca_rows (loca_df : list Loca.row) (selected_id : string)
    : list Loca.row :=
  List.filter (fun r => String.eqb (Loca.LOCA_ID r) selected_id) loca_df.

(** [litho_df[litho_df['LOCA_ID'] == selected_id]], for a frame that has
    the column (see [getitem]). *)
Definition litho_rows (litho_df : list Litho.row) (selected_id : string)
    : list Litho.row :=
  List.filter (fun r => String.eqb (Litho.LOCA_ID r) selected_id) litho_df.

(** The variable [intervals] of the script. *)
Definition intervals_of (litho_df : list Litho.row) (selected_id : string)
    : list Litho.row :=
  sort_values (litho_rows litho_df selected_id).

(** The body of the loop over [intervals.iterrows()]. *)
Definition draw_interval (ground_level : float) (row : Litho.row)
    : list AxCall :=
  let top_m_od := (ground_level - Litho.TOP_BG row)%float in
  let base_m_od := (ground_level - Litho.BASE_BG row)%float in
  let color := dict_get formation_colors (Litho.GEOL_CODE row) default_color in
  [ add_patch
      {| xy := (0.05%float, base_m_od);
         width := 0.9%float;
         height := (top_m_od - base_m_od)%float;
         facecolor := color;
         edgecolor := "black" |};
    ax_text 0.5%float ((top_m_od + base_m_od) / 2)%float (Litho.GEOL_CODE row) ].

Definition base_elevations (ground_level : float) (intervals : list Litho.row)
    : list float :=
  map (fun r => (ground_level - Litho.BASE_BG r)%float) intervals.

Definition chart (ground_level : float) (intervals : list Litho.row)
    : result (list AxCall) :=
  let drawn := flat_map (draw_interval ground_level) intervals in
  lim ← checked_ylim
          (series_min (base_elevations ground_level intervals) - 0.5)%float
          (ground_level + 0.5)%float;
  Ok (drawn ++ [ lim; set_xlim 0 1; invert_yaxis; set_xticks [];
                 set_ylabel "Elevation (m OD)" ]).

(** [intervals] after the two elevation columns are assigned. *)
Definition with_elevations (ground_level : float) (intervals : list Litho.row)
    : DataFrame :=
  assign_column "Base_elev_OD"
    (map (fun r => (ground_level - Litho.BASE_BG r)%float) intervals)
    (assign_column "Top_elev_OD"
       (map (fun r => (ground_level - Litho.TOP_BG r)%float) intervals)
       (to_frame intervals)).

Definition table_columns : list string :=
  ["Top_elev_OD"; "Base_elev_OD"; "GEOL_CODE"; "GEOL_DESC"].

(** The [with left:] block, as a function of the tables and of the value
    the selection control returns. *)
Definition left_pane (loca_df : list Loca.row) (litho_df : list Litho.row)
    (selected_id : string) : result (list StCall) :=
  let head :=
    [ subheader "Borehole Lithology";
      selectbox selectbox_label (options loca_df) 0 ] in
  if truthy selected_id then
    borehole ← iloc0 (loca_rows loca_df selected_id);
    _ ← getitem litho_df;
    let intervals := intervals_of litho_df selected_id in
    if negb (empty_df intervals) then
      let ground_level := Loca.LOCA_GL borehole in
      fig ← chart ground_level intervals;
      shown ← select table_columns (with_elevations ground_level intervals);
      Ok (head ++ [ pyplot fig; markdown "**Interval Table:**";
                    dataframe shown true ])
    else Ok (head ++ [ info no_data_message ])
  else Ok (head ++ [ markdown prompt_message ]).

(** Count of the rows of the lithology table with a given location id. *)
Fixpoint count_rows (selected_id : string) (litho_df : list Litho.row) : nat :=
  match litho_df with
  | [] => 0
  | r :: t =>
      if String.eqb (Litho.LOCA_ID r) selected_id
      then S (count_rows selected_id t) else count_rows selected_id t
  end.

(** The orders the sorted rows are compared with: [top_le] is [<=] on the
    keys; [na_last_le] also puts every row before a row whose key is NaN. *)
Definition top_le (a b : Litho.row) : Prop := top_leb a b = true.
Definition na_last_le (a b : Litho.row) : Prop :=
  isna b = true \/ top_le a b.

(** The rectangles added to the axes, in the order they were added. *)
Fixpoint patches_of (fig : list AxCall) : list Rectangle :=
  match fig with
  | [] => []
  | add_patch r :: t => r :: patches_of t
  | _ :: t => patches_of t
  end.

(** The row the table shows for an interval. *)
Definition shown_row (ground_level : float) (r : Litho.row) : list cell :=
  [ Num (ground_level - Litho.TOP_BG r)%float;
    Num (ground_level - Litho.BASE_BG r)%float;
    Str (Litho.GEOL_CODE r); Str (Litho.GEOL_DESC r) ].

(** The calls every run of the block starts with. *)
Definition head_calls (loca_df : list Loca.row) : list StCall :=
  [ subheader "Borehole Lithology";
    selectbox selectbox_label (options loca_df) 0 ].

(** The calls that follow the loop when the limits are accepted. *)
Definition axis_calls (ground_level : float) (intervals : list Litho.row)
    : list AxCall :=
  [ set_ylim (series_min (base_elevations ground_level intervals) - 0.5)%float
             (ground_level + 0.5)%float;
    set_xlim 0 1; invert_yaxis; set_xticks [];
    set_ylabel "Elevation (m OD)" ].

(** Both arguments of [set_ylim] are finite. *)
Definition finite_limits (ground_level : float) (intervals : list Litho.row)
    : bool :=
  is_finite (series_min (base_elevations ground_level intervals) - 0.5)%float
  && is_finite (ground_level + 0.5)%float.

(** The calls of a run that draws the chart and the table of [intervals]. *)
Definition detail_calls (loca_df : list Loca.row) (ground_level : float)
    (intervals : list Litho.row) : list StCall :=
  head_calls loca_df ++
  [ pyplot (flat_map (draw_interval ground_level) intervals
            ++ axis_calls ground_level intervals);
    markdown "**Interval Table:**";
    dataframe
      {| columns := table_columns;
         data := map (shown_row ground_level) intervals |} true ].

(** A run that shows the chart [fig] and then the table [shown]. *)
Definition shows (loca_df : list Loca.row) (run : result (list StCall))
    (fig : list AxCall) (shown : DataFrame) : Prop :=
  run = Ok (head_calls loca_df ++
            [ pyplot fig; markdown "**Interval Table:**";
              dataframe shown true ]).

(** The six ways a run of the block can end. *)
Inductive outcome (loca_df : list Loca.row) (litho_df : list Litho.row)
    (sel : string) : result (list StCall) -> Prop :=
| out_prompt :
    sel = "" ->
    outcome loca_df litho_df sel
      (Ok (head_calls loca_df ++ [ markdown prompt_message ]))
| out_missing :
    sel <> "" -> loca_rows loca_df sel = [] ->
    outcome loca_df litho_df sel (Raise IndexError)
| out_no_columns borehole :
    sel <> "" -> iloc0 (loca_rows loca_df sel) = Ok borehole ->
    litho_df = [] ->
    outcome loca_df litho_df sel (Raise KeyError)
| out_no_data borehole :
    sel <> "" -> iloc0 (loca_rows loca_df sel) = Ok borehole ->
    litho_df <> [] -> litho_rows litho_df sel = [] ->
    outcome loca_df litho_df sel
      (Ok (head_calls loca_df ++ [ info no_data_message ]))
| out_bad_limits borehole :
    sel <> "" -> iloc0 (loca_rows loca_df sel) = Ok borehole ->
    litho_rows litho_df sel <> [] ->
    finite_limits (Loca.LOCA_GL borehole) (intervals_of litho_df sel) = false ->
    outcome loca_df litho_df sel (Raise ValueError)
| out_detail borehole :
    sel <> "" -> iloc0 (loca_rows loca_df sel) = Ok borehole ->
    litho_rows litho_df sel <> [] ->
    finite_limits (Loca.LOCA_GL borehole) (intervals_of litho_df sel) = true ->
    outcome loca_df litho_df sel
      (Ok (detail_calls loca_df (Loca.LOCA_GL borehole)
             (intervals_of litho_df sel))).

(** Row [i] of the table and rectangle [i] of the chart carry the
    elevations of interval [i]. *)
Definition elevation_rows (loca_df : list Loca.row) (litho_df : list Litho.row)
    (sel : string) (ground_level : float) : Prop :=
  exists fig shown,
    shows loca_df (left_pane loca_df litho_df sel) fig shown /\
    columns shown = ["Top_elev_OD"; "Base_elev_OD"; "GEOL_CODE"; "GEOL_DESC"] /\
    length (data shown) = length (intervals_of litho_df sel) /\
    length (patches_of fig) = length (intervals_of litho_df sel) /\
    forall (i : nat) (r : Litho.row),
      intervals_of litho_df sel !! i = Some r ->
      data shown !! i =
        Some [ Num (ground_level - Litho.TOP_BG r)%float;
               Num (ground_level - Litho.BASE_BG r)%float;
               Str (Litho.GEOL_CODE r); Str (Litho.GEOL_DESC r) ] /\
      exists rect,
        patches_of fig !! i = Some rect /\
        xy rect = (0.05%float, (ground_level - Litho.BASE_BG r)%float) /\
        height rect =
          ((ground_level - Litho.TOP_BG r)
           - (ground_level - Litho.BASE_BG r))%float.

(** The chart and the table are drawn from a list that holds the rows of
    the selection, each once, in ascending order of [TOP_BG]. *)
Definition sorted_rows_rendered (loca_df : list Loca.row)
    (litho_df : list Litho.row) (sel : string) (ground_level : float) : Prop :=
  exists intervals,
    left_pane loca_df litho_df sel =
      Ok (detail_calls loca_df ground_level intervals) /\
    Permutation intervals (litho_rows litho_df sel) /\
    (forall r, In r intervals <-> In r litho_df /\ Litho.LOCA_ID r = sel) /\
    StronglySorted na_last_le intervals /\
    (Forall (fun r => isna r = false) intervals ->
     StronglySorted top_le intervals) /\
    length intervals = count_rows sel litho_df.

(** The table is the selection of four columns of the frame the chart
    rows make once the elevations are assigned, one row per chart row. *)
Definition table_of_chart_rows (loca_df : list Loca.row)
    (litho_df : list Litho.row) (sel : string) (ground_level : float) : Prop :=
  exists intervals shown,
    intervals = intervals_of litho_df sel /\
    shows loca_df (left_pane loca_df litho_df sel)
      (flat_map (draw_interval ground_level) intervals
       ++ axis_calls ground_level intervals) shown /\
    select table_columns (with_elevations ground_level intervals) = Ok shown /\
    columns shown = ["Top_elev_OD"; "Base_elev_OD"; "GEOL_CODE"; "GEOL_DESC"] /\
    data shown = map (shown_row ground_level) intervals.

(** Rectangle [i] of the chart has the colour of the code of interval [i]. *)
Definition colored_by_formation (loca_df : list Loca.row)
    (litho_df : list Litho.row) (sel : string) : Prop :=
  exists fig shown,
    shows loca_df (left_pane loca_df litho_df sel) fig shown /\
    length (patches_of fig) = length (intervals_of litho_df sel) /\
    forall (i : nat) (r : Litho.row),
      intervals_of litho_df sel !! i = Some r ->
      exists rect,
        patches_of fig !! i = Some rect /\
        (forall c, formation_colors !! Litho.GEOL_CODE r = Some c ->
                   facecolor rect = c) /\
        (formation_colors !! Litho.GEOL_CODE r = None ->
         facecolor rect = default_color).

(** The run ends with the empty-state message alone, and that message is
    shown for no other reason; a selection outside the location table is
    not caught, nor is a lithology table without rows. *)
Definition empty_state_only (loca_df : list Loca.row)
    (litho_df : list Litho.row) (sel : string) : Prop :=
  left_pane loca_df litho_df sel =
    Ok [ subheader "Borehole Lithology";
         selectbox selectbox_label (options loca_df) 0;
         info "No lithology data available for this location." ] /\
  (forall out, left_pane loca_df litho_df sel = Ok out ->
     (forall fig, ~ In (pyplot fig) out) /\
     (forall df hide, ~ In (dataframe df hide) out)) /\
  (forall sel' out m,
     left_pane loca_df litho_df sel' = Ok out -> In (info m) out ->
     m = no_data_message /\ sel' <> "" /\
     In sel' (map Loca.LOCA_ID loca_df) /\ count_rows sel' litho_df = 0) /\
  (forall sel',
     sel' <> "" -> ~ In sel' (map Loca.LOCA_ID loca_df) ->
     left_pane loca_df litho_df sel' = Raise IndexError) /\
  (forall sel',
     sel' <> "" -> In sel' (map Loca.LOCA_ID loca_df) ->
     left_pane loca_df [] sel' = Raise KeyError).

(** Depths of consecutive rows meet: the base of each is the top of the next. *)
Fixpoint contiguous (l : list Litho.row) : Prop :=
  match l with
  | a :: ((b :: _) as t) => Litho.BASE_BG a = Litho.TOP_BG b /\ contiguous t
  | _ => True
  end.

(** ** 8. The map of the right column and the whole page *)

(** The text labels added to the axes, in the order they were added. *)
Fixpoint texts_of (fig : list AxCall) : list (float * float * string) :=
  match fig with
  | [] => []
  | ax_text x y s :: t => (x, y, s) :: texts_of t
  | _ :: t => texts_of t
  end.

(** The arguments of the calls of [set_ylim], in the order of the calls. *)
Fixpoint ylims_of (fig : list AxCall) : list (float * float) :=
  match fig with
  | [] => []
  | set_ylim bottom top :: t => (bottom, top) :: ylims_of t
  | _ :: t => ylims_of t
  end.

(** The test of matplotlib's [transforms.nonsingular]: limits that are
    tiny, or closer to each other than [1e-15] of the larger magnitude,
    are not kept but widened. *)
Definition widened (v0 v1 : float) : bool :=
  let '(vmin, vmax) := if (v1 <? v0)%float then (v1, v0) else (v0, v1) in
  let maxabsvalue :=
    if (abs vmin <? abs vmax)%float then abs vmax else abs vmin in
  (maxabsvalue <? (1e6 / 1e-15) * 2.2250738585072014e-308)%float
  || (vmax - vmin <=? maxabsvalue * 1e-15)%float.

(** A row of [loca_df] once the columns [LAT] and [LON] are assigned. *)
Module Geo.
Record row := mk { loca : Loca.row; LAT : float; LON : float }.
End Geo.

Record ViewState := mkViewState
  { longitude : float; latitude : float; zoom : Z; pitch : Z }.

Record Layer := mkLayer
  { layer_type : string; layer_data : list Geo.row; pickable : bool;
    get_position : string; get_radius : Z; get_fill_color : string;
    get_line_color : string; line_width_min_pixels : Z }.

Record Deck := mkDeck
  { map_style : string; initial_view_state : ViewState;
    layers : list Layer; tooltip : string }.

(** The calls of the page, in the order the script makes them; the calls
    of the left column are those of [StCall]. *)
Inductive PageCall :=
| set_page_config (layout : string)
| title (s : string)
| st_columns (spec : list Z)
| map_subheader (s : string)
| pydeck_chart (d : Deck)
| map_markdown (s : string)
| left_call (c : StCall).

(** What a run has put on the page, and the exception that ended it. *)
Definition page := (list PageCall * option exn)%type.

(** The [with left:] block with the calls made so far kept when an
    exception ends the run: [st.pyplot] and the table heading come
    before the table is selected, the chart is complete before
    [st.pyplot]. *)
Definition left_pane_log (loca_df : list Loca.row) (litho_df : list Litho.row)
    (selected_id : string) : list StCall * option exn :=
  let head :=
    [ subheader "Borehole Lithology";
      selectbox selectbox_label (options loca_df) 0 ] in
  if truthy selected_id then
    match iloc0 (loca_rows loca_df selected_id) with
    | Raise e => (head, Some e)
    | Ok borehole =>
        match getitem litho_df with
        | Raise e => (head, Some e)
        | Ok _ =>
            let intervals := intervals_of litho_df selected_id in
            if negb (empty_df intervals) then
              let ground_level := Loca.LOCA_GL borehole in
              match chart ground_level intervals with
              | Raise e => (head, Some e)
              | Ok fig =>
                  let drawn :=
                    [ pyplot fig; markdown "**Interval Table:**" ] in
                  match select table_columns
                          (with_elevations ground_level intervals) with
                  | Raise e => (head ++ drawn, Some e)
                  | Ok shown =>
                      (head ++ drawn ++ [ dataframe shown true ], None)
                  end
              end
            else (head ++ [ info no_data_message ], None)
        end
    end
  else (head ++ [ markdown prompt_message ], None).

Section Page.

(** [transformer.transform] and [Series.mean] are the libraries'. *)
Variable transform : Z -> Z -> float * float.
Variable mean : list float -> float.

(** [loca_df[['LAT', 'LON']] = loca_df.apply(..., axis=1)]: on a frame
    without rows [apply] gives nothing to assign to the two columns and
    the assignment raises [ValueError]. *)
Definition with_latlon (loca_df : list Loca.row) : result (list Geo.row) :=
  match loca_df with
  | [] => Raise ValueError
  | _ :: _ =>
      Ok (map (fun row =>
                 let '(lat, lon) :=
                   grid_to_latlon transform
                     (Loca.EASTING row) (Loca.NORTHING row) in
                 Geo.mk row lat lon) loca_df)
  end.

(** The [with right:] block. *)
Definition right_pane (geo_df : list Geo.row) : list PageCall :=
  let view_state :=
    {| longitude := mean (map Geo.LON geo_df);
       latitude := mean (map Geo.LAT geo_df);
       zoom := 13; pitch := 0 |} in
  let layer :=
    {| layer_type := "ScatterplotLayer";
       layer_data := geo_df;
       pickable := true;
       get_position := "[LON, LAT]";
       get_radius := 25;
       get_fill_color := "[200, 30, 0, 180]";
       get_line_color := "[0, 0, 0]";
       line_width_min_pixels := 2 |} in
  let tooltip := "LOCA_ID: {LOCA_ID}" in
  let r :=
    {| map_style := "mapbox://styles/mapbox/satellite-v9";
       initial_view_state := view_state;
       layers := [layer];
       tooltip := tooltip |} in
  [ map_subheader "Borehole Locations (click to select)";
    pydeck_chart r;
    map_markdown "*Map auto-zooms to all available boreholes.*" ].

(** The script from the assignment of [LAT] and [LON] on: when that
    assignment raises, nothing has been put on the page yet. *)
Definition script (loca_df : list Loca.row) (litho_df : list Litho.row)
    (selected_id : string) : page :=
  match with_latlon loca_df with
  | Raise e => ([], Some e)
  | Ok geo_df =>
      let top :=
        [ set_page_config "wide";
          title "Harwich Formation Lithological Analysis";
          st_columns [1; 2]%Z ] in
      let '(calls, raised) := left_pane_log loca_df litho_df selected_id in
      (top ++ right_pane geo_df ++ map left_call calls, raised)
  end.

End Page.

(** The position deck.gl reads for a point with the accessor [[LON, LAT]]. *)
Definition position_of (r : Geo.row) : float * float :=
  (Geo.LON r, Geo.LAT r).

(** The decks a page shows. *)
Fixpoint decks_of (calls : list PageCall) : list Deck :=
  match calls with
  | [] => []
  | pydeck_chart d :: t => d :: decks_of t
  | _ :: t => decks_of t
  end.

(** The option lists of the selection controls a page shows. *)
Fixpoint controls_of (calls : list PageCall) : list (list string) :=
  match calls with
  | [] => []
  | left_call (selectbox _ opts _) :: t => opts :: controls_of t
  | _ :: t => controls_of t
  end.

(** * Properties *)

(** ** Order on binary64 values *)

Ltac sf_cases :=
  repeat match goal with
  | |- context [Pos.compare_cont Eq ?a ?b] =>
      change (Pos.compare_cont Eq a b) with (Pos.compare a b)
  | H : context [Pos.compare_cont Eq ?a ?b] |- _ =>
      change (Pos.compare_cont Eq a b) with (Pos.compare a b) in H
  end;
  repeat match goal with
  | |- context [Z.compare ?a ?b] => destruct (Z.compare_spec a b)
  | H : context [Z.compare ?a ?b] |- _ => destruct (Z.compare_spec a b)
  | |- context [Pos.compare ?a ?b] => destruct (Pos.compare_spec a b)
  | H : context [Pos.compare ?a ?b] |- _ => destruct (Pos.compare_spec a b)
  end;
  simpl in *; subst; try discriminate; try reflexivity; try lia.

Section FloatOrder.

Lemma SFleb_trans x y z :
  SFleb x y = true -> SFleb y z = true -> SFleb x z = true.
Proof.
  unfold SFleb, SFcompare.
  destruct x as [[]|[]| |[] mx ex], y as [[]|[]| |[] my ey],
    z as [[]|[]| |[] mz ez]; simpl; try discriminate; try reflexivity;
    intros; sf_cases.
Qed.

Lemma SFleb_total x y :
  x <> S754_nan -> y <> S754_nan -> SFleb x y = false -> SFleb y x = true.
Proof.
  unfold SFleb, SFcompare.
  destruct x as [[]|[]| |[] mx ex], y as [[]|[]| |[] my ey];
    simpl; try discriminate; try reflexivity; try congruence;
    intros; sf_cases.
Qed.

Lemma SFltb_leb x y : SFltb x y = true -> SFleb x y = true.
Proof.
  unfold SFltb, SFleb. destruct (SFcompare x y) as [[]|]; done.
Qed.

Lemma SFltb_false_leb x y :
  x <> S754_nan -> y <> S754_nan -> SFltb x y = false -> SFleb y x = true.
Proof.
  unfold SFleb, SFltb, SFcompare.
  destruct x as [[]|[]| |[] mx ex], y as [[]|[]| |[] my ey];
    simpl; try discriminate; try reflexivity; try congruence;
    intros; sf_cases.
Qed.

Lemma is_nan_false x : is_nan x = false -> Prim2SF x <> S754_nan.
Proof.
  unfold is_nan. rewrite eqb_spec. intros H E. rewrite E in H. done.
Qed.

Lemma leb_trans (x y z : float) :
  (x <=? y)%float = true -> (y <=? z)%float = true ->
  (x <=? z)%float = true.
Proof. rewrite !leb_spec. apply SFleb_trans. Qed.

Lemma leb_total (x y : float) :
  is_nan x = false -> is_nan y = false ->
  (x <=? y)%float = false -> (y <=? x)%float = true.
Proof.
  intros Hx Hy. rewrite !leb_spec.
  apply SFleb_total; by apply is_nan_false.
Qed.

Lemma leb_refl (x : float) : is_nan x = false -> (x <=? x)%float = true.
Proof.
  intros Hx. destruct (x <=? x)%float eqn:E; [done|].
  pose proof (leb_total x x Hx Hx E). congruence.
Qed.

Lemma ltb_leb (x y : float) :
  (x <? y)%float = true -> (x <=? y)%float = true.
Proof. rewrite ltb_spec, leb_spec. apply SFltb_leb. Qed.

Lemma ltb_false_leb (x y : float) :
  is_nan x = false -> is_nan y = false ->
  (x <? y)%float = false -> (y <=? x)%float = true.
Proof.
  intros Hx Hy. rewrite ltb_spec, leb_spec.
  apply SFltb_false_leb; by apply is_nan_false.
Qed.

End FloatOrder.

(** ** The sort *)

Section Sorting.

Lemma insert_row_perm r l : Permutation (insert_row r l) (r :: l).
Proof.
  induction l as [|h t IH]; simpl; [done|].
  destruct (top_leb r h); [done|].
  rewrite IH. apply perm_swap.
Qed.

Lemma isort_perm l : Permutation (isort l) l.
Proof.
  induction l as [|r t IH]; simpl; [done|].
  rewrite insert_row_perm. by constructor.
Qed.

Lemma filter_split {A} (f : A -> bool) l :
  Permutation (List.filter (fun r => negb (f r)) l ++ List.filter f l) l.
Proof.
  induction l as [|a l IH]; simpl; [done|].
  destruct (f a); simpl.
  - rewrite <- Permutation_middle. by constructor.
  - by constructor.
Qed.

Lemma sort_values_perm l : Permutation (sort_values l) l.
Proof.
  unfold sort_values. rewrite isort_perm. apply filter_split.
Qed.

Lemma insert_row_sorted r l :
  isna r = false -> Forall (fun a => isna a = false) l ->
  StronglySorted top_le l -> StronglySorted top_le (insert_row r l).
Proof.
  intros Hr Hl Hs. induction Hs as [|h t Hs IH Hh]; simpl.
  - repeat constructor.
  - inversion Hl as [|? ? Hh' Ht]; subst.
    destruct (top_leb r h) eqn:E.
    + constructor; [by constructor|].
      constructor; [done|].
      eapply Forall_impl; [exact Hh|].
      intros a Ha. unfold top_le, top_leb in *. by eapply leb_trans.
    + constructor; [by apply IH|].
      rewrite insert_row_perm. constructor; [|done].
      unfold top_le, top_leb in *. by apply leb_total.
Qed.

Lemma isort_sorted l :
  Forall (fun a => isna a = false) l -> StronglySorted top_le (isort l).
Proof.
  induction 1 as [|r t Hr Ht IH]; simpl; [constructor|].
  apply insert_row_sorted; [done| |done].
  by rewrite isort_perm.
Qed.

Lemma filter_notna l :
  Forall (fun a => isna a = false) (List.filter (fun r => negb (isna r)) l).
Proof.
  apply List.Forall_forall. intros a Ha. apply filter_In in Ha as [_ Ha].
  by destruct (isna a).
Qed.

Lemma filter_none {A} (f : A -> bool) l :
  Forall (fun a => f a = false) l -> List.filter f l = [].
Proof.
  induction 1 as [|a t Ha Ht IH]; simpl; [done|]. by rewrite Ha.
Qed.

Lemma sorted_app_na l1 l2 :
  StronglySorted top_le l1 -> Forall (fun a => isna a = true) l2 ->
  StronglySorted na_last_le (l1 ++ l2).
Proof.
  intros Hs Hn. induction Hs as [|h t Hs IH Hh]; simpl.
  - induction Hn as [|a l2 Ha Hn IH]; constructor; [done|].
    eapply Forall_impl; [exact Hn|]. intros b Hb. by left.
  - constructor; [done|]. apply Forall_app. split.
    + eapply Forall_impl; [exact Hh|]. intros b Hb. by right.
    + eapply Forall_impl; [exact Hn|]. intros b Hb. by left.
Qed.

Lemma sort_values_sorted l : StronglySorted na_last_le (sort_values l).
Proof.
  unfold sort_values. apply sorted_app_na.
  - apply isort_sorted, filter_notna.
  - apply List.Forall_forall. intros a Ha. by apply filter_In in Ha as [_ Ha].
Qed.

Lemma sort_values_sorted_notna l :
  Forall (fun a => isna a = false) l -> StronglySorted top_le (sort_values l).
Proof.
  intros Hl. unfold sort_values.
  rewrite (filter_none isna l Hl), app_nil_r.
  apply isort_sorted, filter_notna.
Qed.

Lemma count_rows_length sel l : length (litho_rows l sel) = count_rows sel l.
Proof.
  unfold litho_rows. induction l as [|r t IH]; simpl; [done|].
  destruct (String.eqb _ _); simpl; by rewrite IH.
Qed.

End Sorting.

(** ** The pane *)

Section Pane.

Lemma with_elevations_data gl l :
  data (with_elevations gl l) =
  map (fun r => (litho_cells r ++ [Num (gl - Litho.TOP_BG r)%float])
                  ++ [Num (gl - Litho.BASE_BG r)%float]) l.
Proof.
  unfold with_elevations, assign_column, to_frame; simpl.
  induction l as [|r t IH]; simpl; [done|]. by rewrite IH.
Qed.

Lemma with_elevations_columns gl l :
  columns (with_elevations gl l) =
  litho_columns ++ ["Top_elev_OD"; "Base_elev_OD"].
Proof. reflexivity. Qed.

Lemma select_shown gl l :
  select table_columns (with_elevations gl l) =
  Ok {| columns := table_columns; data := map (shown_row gl) l |}.
Proof.
  unfold select. rewrite with_elevations_data, with_elevations_columns.
  replace (list_find _ table_columns) with (@None (nat * string))
    by (vm_compute; reflexivity).
  assert (select_rows (litho_columns ++ ["Top_elev_OD"; "Base_elev_OD"])
            table_columns
            (map (fun r => (litho_cells r ++ [Num (gl - Litho.TOP_BG r)%float])
                             ++ [Num (gl - Litho.BASE_BG r)%float]) l)
          = Ok (map (shown_row gl) l)) as ->; [|done].
  induction l as [|r t IH]; [done|].
  cbn [map select_rows]. rewrite IH. reflexivity.
Qed.

Lemma chart_ok gl l :
  finite_limits gl l = true ->
  chart gl l = Ok (flat_map (draw_interval gl) l ++ axis_calls gl l).
Proof.
  unfold finite_limits, chart, checked_ylim. intros ->. reflexivity.
Qed.

Lemma chart_raises gl l :
  finite_limits gl l = false -> chart gl l = Raise ValueError.
Proof.
  unfold finite_limits, chart, checked_ylim. intros ->. reflexivity.
Qed.

Lemma truthy_nonblank s : truthy s = true <-> s <> "".
Proof. destruct s; simpl; split; congruence. Qed.

Lemma empty_df_nil {A} (l : list A) : empty_df l = true <-> l = [].
Proof. destruct l; simpl; split; congruence. Qed.

Lemma getitem_nonempty {A} (df : list A) : df <> [] -> getitem df = Ok df.
Proof. by destruct df. Qed.

Lemma litho_rows_nonempty litho_df sel :
  litho_rows litho_df sel <> [] -> litho_df <> [].
Proof. by intros H ->. Qed.

Lemma intervals_nil litho_df sel :
  intervals_of litho_df sel = [] <-> litho_rows litho_df sel = [].
Proof.
  unfold intervals_of. split; intros H.
  - apply Permutation_nil. rewrite <- H. apply sort_values_perm.
  - by rewrite H.
Qed.

(** A selection with a location row, intervals and finite limits: the
    pane is the chart over [intervals] followed by the table over it. *)
Lemma left_pane_selected loca_df litho_df sel borehole :
  sel <> "" ->
  iloc0 (loca_rows loca_df sel) = Ok borehole ->
  litho_rows litho_df sel <> [] ->
  finite_limits (Loca.LOCA_GL borehole) (intervals_of litho_df sel) = true ->
  left_pane loca_df litho_df sel =
  Ok (detail_calls loca_df (Loca.LOCA_GL borehole)
        (intervals_of litho_df sel)).
Proof.
  intros Hsel Hb Hrows Hfin. unfold left_pane.
  apply truthy_nonblank in Hsel. rewrite Hsel, Hb. cbn [mbind result_bind].
  rewrite (getitem_nonempty _ (litho_rows_nonempty _ _ Hrows)).
  cbn [mbind result_bind].
  destruct (empty_df (intervals_of litho_df sel)) eqn:E.
  { apply empty_df_nil, intervals_nil in E. done. }
  cbn [negb]. rewrite (chart_ok _ _ Hfin). cbn [mbind result_bind].
  rewrite select_shown. reflexivity.
Qed.

(** A selection with a location row and no interval, in a lithology
    table that has rows. *)
Lemma left_pane_no_intervals loca_df litho_df sel borehole :
  sel <> "" ->
  iloc0 (loca_rows loca_df sel) = Ok borehole ->
  litho_df <> [] ->
  litho_rows litho_df sel = [] ->
  left_pane loca_df litho_df sel =
  Ok (head_calls loca_df ++ [ info no_data_message ]).
Proof.
  intros Hsel Hb Hne Hrows. unfold left_pane.
  apply truthy_nonblank in Hsel. rewrite Hsel, Hb. cbn [mbind result_bind].
  rewrite (getitem_nonempty _ Hne). cbn [mbind result_bind].
  apply intervals_nil in Hrows. rewrite Hrows. reflexivity.
Qed.

(** A selection with a location row, and a lithology table without rows:
    reading the column is not caught. *)
Lemma left_pane_no_columns loca_df sel borehole :
  sel <> "" ->
  iloc0 (loca_rows loca_df sel) = Ok borehole ->
  left_pane loca_df [] sel = Raise KeyError.
Proof.
  intros Hsel Hb. unfold left_pane.
  apply truthy_nonblank in Hsel. by rewrite Hsel, Hb.
Qed.

Lemma left_pane_blank loca_df litho_df :
  left_pane loca_df litho_df "" =
  Ok (head_calls loca_df ++ [ markdown prompt_message ]).
Proof. reflexivity. Qed.

(** A selection that is not a location id is not caught. *)
Lemma left_pane_missing loca_df litho_df sel :
  sel <> "" -> loca_rows loca_df sel = [] ->
  left_pane loca_df litho_df sel = Raise IndexError.
Proof.
  intros Hsel Hb. unfold left_pane.
  apply truthy_nonblank in Hsel. rewrite Hsel, Hb. reflexivity.
Qed.

Lemma patches_draw gl l tail :
  patches_of (flat_map (draw_interval gl) l ++ tail) =
  map (fun r =>
         {| xy := (0.05%float, (gl - Litho.BASE_BG r)%float);
            width := 0.9%float;
            height := ((gl - Litho.TOP_BG r) - (gl - Litho.BASE_BG r))%float;
            facecolor :=
              dict_get formation_colors (Litho.GEOL_CODE r) default_color;
            edgecolor := "black" |}) l
  ++ patches_of tail.
Proof.
  induction l as [|r t IH]; [done|].
  cbn [flat_map draw_interval app patches_of map]. by rewrite IH.
Qed.

Lemma iloc0_options loca_df sel borehole :
  iloc0 (loca_rows loca_df sel) = Ok borehole ->
  In sel (map Loca.LOCA_ID loca_df) /\ Loca.LOCA_ID borehole = sel.
Proof.
  unfold iloc0. destruct (loca_rows loca_df sel) as [|b t] eqn:E; [done|].
  intros [= ->].
  assert (In borehole (loca_rows loca_df sel)) as Hin by (rewrite E; by left).
  apply filter_In in Hin as [Hin Heq]. apply String.eqb_eq in Heq.
  split; [|done]. rewrite <- Heq. by apply in_map.
Qed.

Lemma in_options_iloc0 loca_df sel :
  In sel (map Loca.LOCA_ID loca_df) ->
  exists borehole, iloc0 (loca_rows loca_df sel) = Ok borehole.
Proof.
  intros Hin. apply in_map_iff in Hin as (b & Hb & Hin).
  assert (In b (loca_rows loca_df sel)) as H.
  { apply filter_In. split; [done|]. by apply String.eqb_eq. }
  destruct (loca_rows loca_df sel) as [|b' t]; [done|]. by exists b'.
Qed.

End Pane.

(** ** The minimum and the axis *)

Section Axis.

Lemma SFltb_asym x y : SFltb x y = true -> SFltb y x = false.
Proof.
  unfold SFltb, SFcompare.
  destruct x as [[]|[]| |[] mx ex], y as [[]|[]| |[] my ey];
    simpl; try discriminate; try reflexivity; intros; sf_cases.
Qed.

Lemma ltb_asym (x y : float) : (x <? y)%float = true -> (y <? x)%float = false.
Proof. rewrite !ltb_spec. apply SFltb_asym. Qed.

Lemma fold_fmin_spec t x :
  is_nan x = false -> Forall (fun y => is_nan y = false) t ->
  let m := fold_left (fun acc y => fmin y acc) t x in
  is_nan m = false /\ In m (x :: t) /\
  Forall (fun y => (m <=? y)%float = true) (x :: t).
Proof.
  intros Hx Ht. revert x Hx.
  induction Ht as [|y t Hy Ht IH]; intros x Hx; cbn [fold_left].
  - split; [done|]. split; [by left|]. constructor; [by apply leb_refl|done].
  - destruct (IH (fmin y x)) as (Hm & Hin & Hle).
    { unfold fmin. by destruct (y <? x)%float. }
    split; [done|]. split.
    + destruct Hin as [Hin|Hin]; [|by right; right].
      rewrite <- Hin. unfold fmin. destruct (y <? x)%float; [right|]; by left.
    + inversion Hle as [|? ? Hhd Htl]; subst.
      assert ((fmin y x <=? x)%float = true /\ (fmin y x <=? y)%float = true)
        as [Hfx Hfy].
      { unfold fmin. destruct (y <? x)%float eqn:E.
        - split; [by apply ltb_leb|by apply leb_refl].
        - split; [by apply leb_refl|by apply ltb_false_leb]. }
      constructor; [by eapply leb_trans|].
      constructor; [by eapply leb_trans|done].
Qed.

(** [series_min] is an element of the series and below every element
    that is a number. *)
Lemma series_min_least s x :
  In x s -> is_nan x = false ->
  is_nan (series_min s) = false /\ In (series_min s) s /\
  forall y, In y s -> is_nan y = false -> (series_min s <=? y)%float = true.
Proof.
  intros Hin Hx. unfold series_min.
  assert (In x (List.filter (fun x => negb (is_nan x)) s)) as Hf.
  { apply filter_In. by rewrite Hx. }
  destruct (List.filter _ s) as [|a t] eqn:E; [done|].
  assert (Forall (fun y => is_nan y = false) (a :: t)) as Hall.
  { rewrite <- E. apply List.Forall_forall. intros y Hy.
    apply filter_In in Hy as [_ Hy]. by destruct (is_nan y). }
  inversion Hall as [|? ? Ha Ht]; subst.
  destruct (fold_fmin_spec t a Ha Ht) as (Hm & Hmin & Hle).
  split; [done|]. split.
  - assert (In (fold_left (fun acc y => fmin y acc) t a)
              (List.filter (fun x => negb (is_nan x)) s)) as H
      by (by rewrite E).
    by apply filter_In in H as [H _].
  - intros y Hy Hny. rewrite List.Forall_forall in Hle. apply Hle.
    rewrite <- E. apply filter_In. by rewrite Hny.
Qed.

Lemma get_ylim_draw gl l v :
  fold_left apply_call (flat_map (draw_interval gl) l) v = v.
Proof. induction l as [|r t IH]; [done|]. exact IH. Qed.

(** With increasing arguments of [set_ylim], [get_ylim] after the calls
    of the chart has the larger limit at the bottom edge and the smaller
    at the top edge. *)
Lemma get_ylim_chart gl l :
  (series_min (base_elevations gl l) - 0.5 <? gl + 0.5)%float = true ->
  get_ylim (flat_map (draw_interval gl) l ++ axis_calls gl l) =
  ((gl + 0.5)%float, (series_min (base_elevations gl l) - 0.5)%float).
Proof.
  intros Hlt. unfold get_ylim. rewrite fold_left_app, get_ylim_draw.
  cbn [axis_calls fold_left apply_call].
  unfold get_inverted, set_inverted, sorted2. cbn [fst snd].
  rewrite (ltb_asym _ _ Hlt). cbn [negb]. by rewrite Hlt.
Qed.

End Axis.

(** ** Outcomes of a run *)

Section Outcomes.

Lemma left_pane_bad_limits loca_df litho_df sel borehole :
  sel <> "" ->
  iloc0 (loca_rows loca_df sel) = Ok borehole ->
  litho_rows litho_df sel <> [] ->
  finite_limits (Loca.LOCA_GL borehole) (intervals_of litho_df sel) = false ->
  left_pane loca_df litho_df sel = Raise ValueError.
Proof.
  intros Hsel Hb Hrows Hfin. unfold left_pane.
  apply truthy_nonblank in Hsel. rewrite Hsel, Hb. cbn [mbind result_bind].
  rewrite (getitem_nonempty _ (litho_rows_nonempty _ _ Hrows)).
  cbn [mbind result_bind].
  destruct (empty_df (intervals_of litho_df sel)) eqn:E.
  { apply empty_df_nil, intervals_nil in E. done. }
  cbn [negb]. by rewrite (chart_raises _ _ Hfin).
Qed.

Lemma left_pane_outcome loca_df litho_df sel :
  outcome loca_df litho_df sel (left_pane loca_df litho_df sel).
Proof.
  destruct (decide (sel = "")) as [->|Hsel].
  { rewrite left_pane_blank. by constructor. }
  destruct (loca_rows loca_df sel) as [|b t] eqn:Eb.
  { rewrite left_pane_missing by done. by constructor. }
  assert (iloc0 (loca_rows loca_df sel) = Ok b) as Hb by (by rewrite Eb).
  destruct (decide (litho_df = [])) as [->|Hne].
  { rewrite (left_pane_no_columns _ _ b) by done. by econstructor. }
  destruct (litho_rows litho_df sel) as [|r rs] eqn:Er.
  { rewrite (left_pane_no_intervals _ _ _ b) by done. by econstructor. }
  assert (litho_rows litho_df sel <> []) as Hr by (by rewrite Er).
  destruct (finite_limits (Loca.LOCA_GL b) (intervals_of litho_df sel)) eqn:Ef.
  - rewrite (left_pane_selected _ _ _ b) by done. by econstructor.
  - rewrite (left_pane_bad_limits _ _ _ b) by done. by econstructor.
Qed.

Lemma count_rows_zero sel litho_df :
  count_rows sel litho_df = 0 <-> litho_rows litho_df sel = [].
Proof.
  rewrite <- count_rows_length. by destruct (litho_rows litho_df sel).
Qed.

Lemma litho_rows_in litho_df sel r :
  In r (litho_rows litho_df sel) <-> In r litho_df /\ Litho.LOCA_ID r = sel.
Proof. unfold litho_rows. by rewrite filter_In, String.eqb_eq. Qed.

Lemma lookup_map {A B} (f : A -> B) (l : list A) (i : nat) :
  map f l !! i = f <$> (l !! i).
Proof.
  revert i. induction l as [|a t IH]; intros [|i]; simpl; done.
Qed.

End Outcomes.

(** ** Elevations (C1) *)

Lemma elevation_rows_selected loca_df litho_df sel borehole :
  sel <> "" ->
  iloc0 (loca_rows loca_df sel) = Ok borehole ->
  litho_rows litho_df sel <> [] ->
  finite_limits (Loca.LOCA_GL borehole) (intervals_of litho_df sel) = true ->
  elevation_rows loca_df litho_df sel (Loca.LOCA_GL borehole).
Proof.
  intros Hsel Hb Hrows Hfin.
  eexists _, _. split.
  { unfold shows. rewrite (left_pane_selected _ _ _ _ Hsel Hb Hrows Hfin).
    reflexivity. }
  cbn [columns data]. rewrite patches_draw, app_nil_r, !length_map.
  do 3 (split; [reflexivity|]).
  intros i r Hi. rewrite !lookup_map, Hi. split; [reflexivity|].
  eexists. split; [reflexivity|]. by split.
Qed.

(** C1: every rendered interval row has top elevation [ground_level -
    top_depth] and base elevation [ground_level - base_depth], in the
    table and in the rectangle of the chart; for "BH01" (ground level
    50.0) the interval with top 1 and base 3 is shown with 49.0 and 47.0. *)
Theorem elevation_is_ground_level_minus_depth :
  (forall loca_df litho_df sel borehole,
      sel <> "" ->
      iloc0 (loca_rows loca_df sel) = Ok borehole ->
      litho_rows litho_df sel <> [] ->
      finite_limits (Loca.LOCA_GL borehole) (intervals_of litho_df sel) = true ->
      elevation_rows loca_df litho_df sel (Loca.LOCA_GL borehole)) /\
  (exists fig shown,
      shows loca_data (left_pane loca_data litho_data "BH01") fig shown /\
      iloc0 (loca_rows loca_data "BH01") =
        Ok (Loca.mk "BH01" 50.0 551000 180000) /\
      intervals_of litho_data "BH01" !! 1 =
        Some (Litho.mk "BH01" 1 3 "HWH_SILTSTONE" "Harwich siltstone") /\
      data shown !! 1 =
        Some [ Num 49.0; Num 47.0; Str "HWH_SILTSTONE";
               Str "Harwich siltstone" ]).
Proof.
  split; [exact elevation_rows_selected|].
  eexists _, _. split; [unfold shows; vm_compute; reflexivity|].
  repeat split; vm_compute; reflexivity.
Qed.

Lemma elevation_is_ground_level_minus_depth_witness :
  elevation_rows loca_data litho_data "BH03" 46.0.
Proof.
  apply (proj1 elevation_is_ground_level_minus_depth
           loca_data litho_data "BH03" (Loca.mk "BH03" 46.0 551500 181000));
    [ discriminate | reflexivity | discriminate | vm_compute; reflexivity ].
Defined.

(** ** The interval list (C2) *)

(** C2: for a selection with intervals, the list the chart and the table
    are rendered from holds exactly the rows of the lithology table whose
    location id is the selection, in ascending order of top depth (rows
    without a depth last), and has as many rows as the table has for
    that id. *)
Theorem intervals_are_sorted_rows_of_selection
    loca_df litho_df sel borehole :
  sel <> "" ->
  iloc0 (loca_rows loca_df sel) = Ok borehole ->
  litho_rows litho_df sel <> [] ->
  finite_limits (Loca.LOCA_GL borehole) (intervals_of litho_df sel) = true ->
  sorted_rows_rendered loca_df litho_df sel (Loca.LOCA_GL borehole).
Proof.
  intros Hsel Hb Hrows Hfin. exists (intervals_of litho_df sel).
  split; [by apply left_pane_selected|].
  assert (Permutation (intervals_of litho_df sel) (litho_rows litho_df sel))
    as Hperm by apply sort_values_perm.
  split; [done|]. split.
  { intros r. rewrite <- litho_rows_in. split; apply Permutation_in; [done|].
    by symmetry. }
  split; [apply sort_values_sorted|]. split.
  - intros Hn. apply sort_values_sorted_notna.
    eapply Permutation_Forall; [exact Hperm|done].
  - rewrite <- count_rows_length. by apply Permutation_length.
Qed.

Lemma intervals_are_sorted_rows_of_selection_witness :
  sorted_rows_rendered loca_data (rev litho_data) "BH01" 50.0.
Proof.
  apply (intervals_are_sorted_rows_of_selection
           loca_data (rev litho_data) "BH01"
           (Loca.mk "BH01" 50.0 551000 180000));
    [ discriminate | reflexivity | discriminate | vm_compute; reflexivity ].
Defined.

(** ** The empty state and the prompt (C4, C5) *)

Lemma info_only_when_empty loca_df litho_df sel out m :
  left_pane loca_df litho_df sel = Ok out -> In (info m) out ->
  m = no_data_message /\ sel <> "" /\
  In sel (map Loca.LOCA_ID loca_df) /\ count_rows sel litho_df = 0.
Proof.
  intros Hout Hin.
  pose proof (left_pane_outcome loca_df litho_df sel) as H.
  rewrite Hout in H.
  inversion H as [Hs|Hs Hm|b Hs Hb Hn|b Hs Hb Hn Hr|b Hs Hb Hr Hf|b Hs Hb Hr Hf];
    subst; cbn in Hin.
  - exfalso. intuition discriminate.
  - destruct Hin as [Hin|[Hin|[Hin|[]]]]; try discriminate.
    injection Hin as <-. split; [done|]. split; [done|].
    split; [by eapply iloc0_options|by apply count_rows_zero].
  - exfalso. intuition discriminate.
Qed.

(** C4: in a lithology table that has rows, a selected location id with
    no lithology interval gets the informational empty-state message and
    neither chart nor table; the message is shown in no other case, and
    nothing else is caught: a selection that is no location id raises,
    and so does a lithology table without any row. *)
Theorem no_intervals_empty_state loca_df litho_df sel :
  sel <> "" ->
  In sel (map Loca.LOCA_ID loca_df) ->
  litho_df <> [] ->
  count_rows sel litho_df = 0 ->
  empty_state_only loca_df litho_df sel.
Proof.
  intros Hsel Hin Hne Hcount.
  destruct (in_options_iloc0 _ _ Hin) as [b Hb].
  apply count_rows_zero in Hcount.
  pose proof (left_pane_no_intervals _ _ _ _ Hsel Hb Hne Hcount) as Hrun.
  split; [exact Hrun|]. split.
  { intros out. rewrite Hrun. intros [= <-].
    split; intros; cbn; intuition discriminate. }
  split; [apply info_only_when_empty|]. split.
  - intros sel' Hsel' Hnot. apply left_pane_missing; [done|].
    destruct (loca_rows loca_df sel') as [|b' t] eqn:E; [done|].
    exfalso. apply Hnot.
    eapply iloc0_options with (borehole := b'). by rewrite E.
  - intros sel' Hsel' Hin'.
    destruct (in_options_iloc0 _ _ Hin') as [b' Hb'].
    by eapply left_pane_no_columns.
Qed.

Lemma no_intervals_empty_state_witness :
  empty_state_only loca_data (litho_rows litho_data "BH01") "BH02".
Proof.
  apply (no_intervals_empty_state
           loca_data (litho_rows litho_data "BH01") "BH02");
    [ discriminate | vm_compute; tauto | discriminate | reflexivity ].
Defined.

(** C5: with the blank option chosen the pane shows the prompt and
    neither chart nor table; the control lists the blank option followed
    by every location id. *)
Theorem blank_selection_prompt (loca_df : list Loca.row)
    (litho_df : list Litho.row) :
  left_pane loca_df litho_df "" =
    Ok [ subheader "Borehole Lithology";
         selectbox selectbox_label ("" :: map Loca.LOCA_ID loca_df) 0;
         markdown prompt_message ] /\
  options loca_df = "" :: map Loca.LOCA_ID loca_df /\
  options loca_data = [""; "BH01"; "BH02"; "BH03"] /\
  prompt_message =
    "_Select a point on the map or choose from the dropdown to see lithology details._".
Proof. repeat split. Qed.

(** ** The vertical axis (C6) *)

(** The arguments of [set_ylim] are the least base elevation less 0.5
    and the ground level plus 0.5. *)
Lemma set_ylim_arguments gl l r :
  In r l -> Forall (fun r => is_nan (gl - Litho.BASE_BG r)%float = false) l ->
  exists m,
    In (set_ylim (m - 0.5)%float (gl + 0.5)%float) (axis_calls gl l) /\
    In m (base_elevations gl l) /\
    forall r', In r' l -> (m <=? gl - Litho.BASE_BG r')%float = true.
Proof.
  intros Hin Hall. rewrite List.Forall_forall in Hall.
  destruct (series_min_least (base_elevations gl l)
              (gl - Litho.BASE_BG r)%float) as (_ & Hm & Hle).
  { unfold base_elevations.
    by apply (in_map (fun r => (gl - Litho.BASE_BG r)%float)). }
  { by apply Hall. }
  exists (series_min (base_elevations gl l)).
  split; [by left|]. split; [done|].
  intros r' Hr'. apply Hle; [|by apply Hall].
  unfold base_elevations.
  by apply (in_map (fun r => (gl - Litho.BASE_BG r)%float)).
Qed.

(** C6, on the embedded tables: for "BH01" the script calls
    [set_ylim(44.5, 50.5)] (least base elevation 45.0 less 0.5, ground
    level 50.0 plus 0.5) and then [invert_yaxis()], after which the axis
    has 50.5 at its bottom edge and 44.5 at its top edge: ground level
    is drawn at the bottom. *)
Theorem axis_of_BH01_has_ground_level_at_bottom :
  exists fig shown,
    shows loca_data (left_pane loca_data litho_data "BH01") fig shown /\
    series_min (base_elevations 50.0 (intervals_of litho_data "BH01"))
      = 45.0%float /\
    In (set_ylim 44.5 50.5) fig /\
    In invert_yaxis fig /\
    get_ylim fig = (50.5%float, 44.5%float).
Proof.
  eexists _, _. split; [unfold shows; vm_compute; reflexivity|].
  split; [vm_compute; reflexivity|].
  split; [do 6 right; by left|].
  split; [do 8 right; by left|].
  vm_compute; reflexivity.
Qed.

(** ** The interval table (C7) *)

(** C7 as stated fails on the embedded tables: for "BH01" the frame with
    the two elevation columns appended has seven columns, and the table
    that is displayed is another frame, with four. *)
Lemma displayed_table_is_not_the_appended_frame :
  exists fig shown,
    shows loca_data (left_pane loca_data litho_data "BH01") fig shown /\
    columns (with_elevations 50.0 (intervals_of litho_data "BH01")) =
      [ "LOCA_ID"; "TOP_BG"; "BASE_BG"; "GEOL_CODE"; "GEOL_DESC";
        "Top_elev_OD"; "Base_elev_OD" ] /\
    columns shown = ["Top_elev_OD"; "Base_elev_OD"; "GEOL_CODE"; "GEOL_DESC"] /\
    shown <> with_elevations 50.0 (intervals_of litho_data "BH01").
Proof.
  eexists _, _. split; [unfold shows; vm_compute; reflexivity|].
  split; [reflexivity|]. split; [reflexivity|].
  intros H. apply (f_equal (fun df => length (columns df))) in H.
  vm_compute in H. discriminate.
Qed.

(** C7, amended: the displayed table has one row for each interval of
    the filtered and sorted list the chart is drawn from, in the same
    order; it shows four columns of that list with the two elevations
    assigned (top elevation, base elevation, geology code, description),
    and is displayed without a row index. *)
Theorem displayed_table_selects_four_columns
    loca_df litho_df sel borehole :
  sel <> "" ->
  iloc0 (loca_rows loca_df sel) = Ok borehole ->
  litho_rows litho_df sel <> [] ->
  finite_limits (Loca.LOCA_GL borehole) (intervals_of litho_df sel) = true ->
  table_of_chart_rows loca_df litho_df sel (Loca.LOCA_GL borehole).
Proof.
  intros Hsel Hb Hrows Hfin. eexists _, _. split; [reflexivity|]. split.
  { unfold shows. rewrite (left_pane_selected _ _ _ _ Hsel Hb Hrows Hfin).
    reflexivity. }
  split; [apply select_shown|]. by split.
Qed.

Lemma displayed_table_selects_four_columns_witness :
  table_of_chart_rows loca_data litho_data "BH02" 48.5.
Proof.
  apply (displayed_table_selects_four_columns
           loca_data litho_data "BH02" (Loca.mk "BH02" 48.5 552000 180500));
    [ discriminate | reflexivity | discriminate | vm_compute; reflexivity ].
Defined.

(** ** Formation colours (C8) *)

(** C8: the rectangle of every rendered interval is filled with the
    colour [formation_colors] maps its geology code to, and with
    [default_color] when the code is not a key of the map. *)
Theorem rectangle_color_by_formation loca_df litho_df sel borehole :
  sel <> "" ->
  iloc0 (loca_rows loca_df sel) = Ok borehole ->
  litho_rows litho_df sel <> [] ->
  finite_limits (Loca.LOCA_GL borehole) (intervals_of litho_df sel) = true ->
  colored_by_formation loca_df litho_df sel.
Proof.
  intros Hsel Hb Hrows Hfin. eexists _, _. split.
  { unfold shows. rewrite (left_pane_selected _ _ _ _ Hsel Hb Hrows Hfin).
    reflexivity. }
  rewrite patches_draw, app_nil_r, length_map. split; [reflexivity|].
  intros i r Hi. rewrite lookup_map, Hi. eexists. split; [reflexivity|].
  cbn [facecolor]. unfold dict_get. split.
  - by intros c ->.
  - by intros ->.
Qed.

Lemma rectangle_color_by_formation_witness :
  colored_by_formation loca_data
    [ Litho.mk "BH01" 0 2 "LONDON_CLAY" "London Clay";
      Litho.mk "BH01" 2 6 "CHALK" "Chalk, weathered" ] "BH01".
Proof.
  apply (rectangle_color_by_formation loca_data
           [ Litho.mk "BH01" 0 2 "LONDON_CLAY" "London Clay";
             Litho.mk "BH01" 2 6 "CHALK" "Chalk, weathered" ] "BH01"
           (Loca.mk "BH01" 50.0 551000 180000));
    [ discriminate | reflexivity | discriminate | vm_compute; reflexivity ].
Defined.

(** ** The embedded tables (C9, C10) *)

(** C9: in the embedded tables every base depth is strictly greater than
    the top depth, the sorted intervals of each location are contiguous,
    and every location id of a lithology row is in the location table. *)
Theorem sample_tables_well_formed :
  Forall (fun r => (Litho.TOP_BG r <? Litho.BASE_BG r)%float = true)
    litho_data /\
  Forall (fun b => contiguous (intervals_of litho_data (Loca.LOCA_ID b)))
    loca_data /\
  Forall (fun r => In (Litho.LOCA_ID r) (map Loca.LOCA_ID loca_data))
    litho_data.
Proof.
  split; [repeat constructor|].
  split; [repeat constructor|].
  repeat constructor; vm_compute; tauto.
Qed.

(** C10: every location id the control offers has at least one interval
    in the embedded tables, the run for it draws the chart and the table,
    and no option of the control leads to the empty-state message. *)
Theorem every_option_has_intervals :
  Forall (fun sel =>
            0 < count_rows sel litho_data /\
            exists gl intervals,
              intervals <> [] /\
              left_pane loca_data litho_data sel =
                Ok (detail_calls loca_data gl intervals))
    (map Loca.LOCA_ID loca_data) /\
  Forall (fun sel =>
            forall out m,
              left_pane loca_data litho_data sel = Ok out ->
              ~ In (info m) out)
    (options loca_data).
Proof.
  split.
  - repeat constructor; try (vm_compute; lia).
    + exists 50.0%float, (intervals_of litho_data "BH01").
      split; [discriminate|vm_compute; reflexivity].
    + exists 48.5%float, (intervals_of litho_data "BH02").
      split; [discriminate|vm_compute; reflexivity].
    + exists 46.0%float, (intervals_of litho_data "BH03").
      split; [discriminate|vm_compute; reflexivity].
  - repeat constructor; intros out m Hout Hin;
      destruct (info_only_when_empty _ _ _ _ _ Hout Hin) as (_ & Hs & _ & Hc);
      vm_compute in Hc; congruence.
Qed.

(** * Further properties of the script *)

(** ** Values that are not finite *)

Section NotFinite.

Lemma SFeqb_refl s : s <> S754_nan -> SFeqb s s = true.
Proof.
  unfold SFeqb, SFcompare. destruct s as [[]|[]| |[] m e]; try done;
    intros _; rewrite Z.compare_refl;
    change (Pos.compare_cont Eq m m) with (Pos.compare m m);
    by rewrite Pos.compare_refl.
Qed.

Lemma is_nan_true x : is_nan x = true -> Prim2SF x = S754_nan.
Proof.
  unfold is_nan. rewrite eqb_spec. intros H.
  destruct (Prim2SF x) as [s|s| |s m e] eqn:E; [| |done|];
    by rewrite SFeqb_refl in H.
Qed.

Lemma Prim2SF_nan_is_nan x : Prim2SF x = S754_nan -> is_nan x = true.
Proof. unfold is_nan. rewrite eqb_spec. by intros ->. Qed.

Lemma Prim2SF_infinity : Prim2SF infinity = S754_infinity false.
Proof. reflexivity. Qed.

Lemma is_infinity_true x :
  is_infinity x = true -> exists s, Prim2SF x = S754_infinity s.
Proof.
  unfold is_infinity. rewrite eqb_spec, abs_spec, Prim2SF_infinity.
  destruct (Prim2SF x) as [s|s| |s m e]; try done. by exists s.
Qed.

Lemma Prim2SF_infinity_is_infinity x s :
  Prim2SF x = S754_infinity s -> is_infinity x = true.
Proof.
  unfold is_infinity. rewrite eqb_spec, abs_spec, Prim2SF_infinity.
  by intros ->.
Qed.

Lemma not_finite_cases x :
  is_finite x = false <->
  Prim2SF x = S754_nan \/ exists s, Prim2SF x = S754_infinity s.
Proof.
  unfold is_finite. split.
  - intros H. apply negb_false_iff, orb_true_iff in H as [H|H].
    + left. by apply is_nan_true.
    + right. by apply is_infinity_true.
  - intros [H|[s H]]; apply negb_false_iff, orb_true_iff.
    + left. by apply Prim2SF_nan_is_nan.
    + right. by eapply Prim2SF_infinity_is_infinity.
Qed.

(** Adding a half to a value that is not finite gives one that is not. *)
Lemma add_half_not_finite x :
  is_finite x = false -> is_finite (x + 0.5)%float = false.
Proof.
  rewrite !not_finite_cases, add_spec.
  replace (Prim2SF 0.5%float) with (S754_finite false 4503599627370496 (-53))
    by reflexivity.
  intros [->|[s ->]]; [by left|]. right. by exists s.
Qed.

End NotFinite.

(** ** Ground level that is not a finite number *)

(** X2: when the ground level of the selected location is NaN or
    infinite and the location has intervals, the run raises
    [ValueError]; the page then holds the heading and the selection
    control of the left column and nothing of the detail. *)
Theorem nonfinite_ground_level_raises loca_df litho_df sel borehole :
  sel <> "" ->
  iloc0 (loca_rows loca_df sel) = Ok borehole ->
  litho_rows litho_df sel <> [] ->
  is_finite (Loca.LOCA_GL borehole) = false ->
  left_pane loca_df litho_df sel = Raise ValueError /\
  left_pane_log loca_df litho_df sel =
    ([ subheader "Borehole Lithology";
       selectbox selectbox_label (options loca_df) 0 ], Some ValueError).
Proof.
  intros Hsel Hb Hrows Hgl.
  assert (finite_limits (Loca.LOCA_GL borehole) (intervals_of litho_df sel)
          = false) as Hfin.
  { unfold finite_limits. rewrite (add_half_not_finite _ Hgl).
    apply andb_false_r. }
  split; [by eapply left_pane_bad_limits|].
  unfold left_pane_log. apply truthy_nonblank in Hsel. rewrite Hsel, Hb.
  rewrite (getitem_nonempty _ (litho_rows_nonempty _ _ Hrows)).
  destruct (empty_df (intervals_of litho_df sel)) eqn:E.
  { apply empty_df_nil, intervals_nil in E. done. }
  cbn [negb]. by rewrite (chart_raises _ _ Hfin).
Qed.

Lemma nonfinite_ground_level_raises_witness :
  left_pane [Loca.mk "BH01" nan 551000 180000] litho_data "BH01"
    = Raise ValueError /\
  left_pane_log [Loca.mk "BH01" nan 551000 180000] litho_data "BH01" =
    ([ subheader "Borehole Lithology";
       selectbox selectbox_label
         (options [Loca.mk "BH01" nan 551000 180000]) 0 ], Some ValueError).
Proof.
  apply (nonfinite_ground_level_raises
           [Loca.mk "BH01" nan 551000 180000] litho_data "BH01"
           (Loca.mk "BH01" nan 551000 180000));
    [ discriminate | reflexivity | discriminate | reflexivity ].
Defined.

(** ** Order of the rendered rows *)

Section TableOrder.

Lemma SFltb_not_nan x y :
  SFltb x y = true -> x <> S754_nan /\ y <> S754_nan.
Proof.
  unfold SFltb, SFcompare.
  destruct x as [[]|[]| |[] mx ex], y as [[]|[]| |[] my ey]; done.
Qed.

Lemma Prim2SF_not_nan x : Prim2SF x <> S754_nan -> is_nan x = false.
Proof.
  intros H. unfold is_nan. rewrite eqb_spec. by rewrite SFeqb_refl.
Qed.

Lemma ltb_not_nan (x y : float) :
  (x <? y)%float = true -> is_nan x = false /\ is_nan y = false.
Proof.
  rewrite ltb_spec. intros H. apply SFltb_not_nan in H as [Hx Hy].
  split; by apply Prim2SF_not_nan.
Qed.

Lemma filter_all {A} (f : A -> bool) l :
  Forall (fun a => f a = true) l -> List.filter f l = l.
Proof.
  induction 1 as [|a t Ha Ht IH]; simpl; [done|]. by rewrite Ha, IH.
Qed.

Lemma ascending_not_na a b t :
  Sorted (fun a b => (Litho.TOP_BG a <? Litho.TOP_BG b)%float = true)
    (a :: b :: t) ->
  Forall (fun r => isna r = false) (a :: b :: t).
Proof.
  revert a b. induction t as [|c t IH]; intros a b Hs;
    inversion Hs as [|? ? Hs' Hhd]; subst;
    inversion Hhd as [|? ? Hab]; subst;
    apply ltb_not_nan in Hab as [Ha Hb].
  - by repeat constructor.
  - constructor; [done|]. by apply IH.
Qed.

Lemma ascending_isort l :
  Sorted (fun a b => (Litho.TOP_BG a <? Litho.TOP_BG b)%float = true) l ->
  isort l = l.
Proof.
  induction 1 as [|r t Hs IH Hhd]; [done|].
  cbn [isort]. rewrite IH. destruct Hhd as [|h t' Hlt]; [done|].
  cbn [insert_row]. unfold top_leb. by rewrite (ltb_leb _ _ Hlt).
Qed.

Lemma ascending_sort_values l :
  Sorted (fun a b => (Litho.TOP_BG a <? Litho.TOP_BG b)%float = true) l ->
  sort_values l = l.
Proof.
  intros Hs. unfold sort_values. destruct l as [|a [|b t]]; [done| |].
  - cbn. by destruct (isna a).
  - pose proof (ascending_not_na _ _ _ Hs) as Hn.
    rewrite (filter_none isna _ Hn), app_nil_r, filter_all.
    + by apply ascending_isort.
    + eapply Forall_impl; [exact Hn|]. by intros r ->.
Qed.

End TableOrder.

(** X4: when the rows of the selected location stand in the lithology
    table in strictly increasing top depth, the rendered intervals are
    those rows in table order. *)
Theorem ascending_rows_keep_table_order litho_df sel :
  Sorted (fun a b => (Litho.TOP_BG a <? Litho.TOP_BG b)%float = true)
    (litho_rows litho_df sel) ->
  intervals_of litho_df sel = litho_rows litho_df sel.
Proof. apply ascending_sort_values. Qed.

Lemma ascending_rows_keep_table_order_witness :
  intervals_of litho_data "BH03" = litho_rows litho_data "BH03".
Proof.
  apply (ascending_rows_keep_table_order litho_data "BH03").
  vm_compute. repeat constructor.
Defined.

(** ** Labels and limits of the chart *)

Section Chart.

Lemma texts_draw gl l tail :
  texts_of (flat_map (draw_interval gl) l ++ tail) =
  map (fun r =>
         (0.5%float,
          (((gl - Litho.TOP_BG r) + (gl - Litho.BASE_BG r)) / 2)%float,
          Litho.GEOL_CODE r)) l
  ++ texts_of tail.
Proof.
  induction l as [|r t IH]; [done|].
  cbn [flat_map draw_interval List.app texts_of map]. by rewrite IH.
Qed.

Lemma ylims_draw gl l tail :
  ylims_of (flat_map (draw_interval gl) l ++ tail) = ylims_of tail.
Proof. induction l as [|r t IH]; [done|]. exact IH. Qed.

Lemma sub_half_nan x : is_nan x = true -> is_finite (x - 0.5)%float = false.
Proof.
  intros H. apply not_finite_cases. left.
  by rewrite sub_spec, (is_nan_true _ H).
Qed.

(** Finite limits leave a base elevation that is a number. *)
Lemma finite_limits_has_number gl l :
  finite_limits gl l = true ->
  exists x, In x (base_elevations gl l) /\ is_nan x = false.
Proof.
  unfold finite_limits. intros H. apply andb_true_iff in H as [H _].
  destruct (is_nan (series_min (base_elevations gl l))) eqn:E.
  { by rewrite (sub_half_nan _ E) in H. }
  unfold series_min in E.
  destruct (List.filter _ (base_elevations gl l)) as [|x t] eqn:Ef; [done|].
  exists x.
  assert (In x (List.filter (fun x => negb (is_nan x)) (base_elevations gl l)))
    as Hin by (rewrite Ef; by left).
  apply filter_In in Hin as [Hin Hx]. split; [done|]. by destruct (is_nan x).
Qed.

End Chart.

(** X5: the chart of a rendered selection carries one label for each
    interval, in the order of the intervals: the geology code of the
    interval, written at x = 0.5 and at the elevation halfway between
    its top and base elevations. *)
Theorem labels_are_geology_codes loca_df litho_df sel borehole :
  sel <> "" ->
  iloc0 (loca_rows loca_df sel) = Ok borehole ->
  litho_rows litho_df sel <> [] ->
  finite_limits (Loca.LOCA_GL borehole) (intervals_of litho_df sel) = true ->
  exists fig shown,
    shows loca_df (left_pane loca_df litho_df sel) fig shown /\
    texts_of fig =
      map (fun r =>
             (0.5%float,
              (((Loca.LOCA_GL borehole - Litho.TOP_BG r)
                + (Loca.LOCA_GL borehole - Litho.BASE_BG r)) / 2)%float,
              Litho.GEOL_CODE r))
        (intervals_of litho_df sel) /\
    length (texts_of fig) = length (patches_of fig).
Proof.
  intros Hsel Hb Hrows Hfin. eexists _, _. split.
  { unfold shows. rewrite (left_pane_selected _ _ _ _ Hsel Hb Hrows Hfin).
    reflexivity. }
  rewrite texts_draw, patches_draw, !app_nil_r, !length_map. by split.
Qed.

Lemma labels_are_geology_codes_witness :
  exists fig shown,
    shows loca_data (left_pane loca_data litho_data "BH02") fig shown /\
    texts_of fig =
      map (fun r =>
             (0.5%float,
              (((48.5 - Litho.TOP_BG r) + (48.5 - Litho.BASE_BG r)) / 2)%float,
              Litho.GEOL_CODE r))
        (intervals_of litho_data "BH02") /\
    length (texts_of fig) = length (patches_of fig).
Proof.
  apply (labels_are_geology_codes loca_data litho_data "BH02"
           (Loca.mk "BH02" 48.5 552000 180500));
    [ discriminate | reflexivity | discriminate | vm_compute; reflexivity ].
Defined.

(** X6: the chart of a rendered selection calls [set_ylim] exactly once,
    with [m - 0.5] and [ground_level + 0.5], where [m] is the base
    elevation of one of the intervals and is below or equal to the base
    elevation of every interval whose base elevation is a number. *)
Theorem limits_are_least_base_and_ground_level
    loca_df litho_df sel borehole :
  sel <> "" ->
  iloc0 (loca_rows loca_df sel) = Ok borehole ->
  litho_rows litho_df sel <> [] ->
  finite_limits (Loca.LOCA_GL borehole) (intervals_of litho_df sel) = true ->
  exists fig shown m,
    shows loca_df (left_pane loca_df litho_df sel) fig shown /\
    ylims_of fig =
      [ ((m - 0.5)%float, (Loca.LOCA_GL borehole + 0.5)%float) ] /\
    (exists r, In r (intervals_of litho_df sel) /\
               m = (Loca.LOCA_GL borehole - Litho.BASE_BG r)%float) /\
    forall r, In r (intervals_of litho_df sel) ->
      is_nan (Loca.LOCA_GL borehole - Litho.BASE_BG r)%float = false ->
      (m <=? Loca.LOCA_GL borehole - Litho.BASE_BG r)%float = true.
Proof.
  intros Hsel Hb Hrows Hfin.
  set (gl := Loca.LOCA_GL borehole) in *.
  set (l := intervals_of litho_df sel) in *.
  eexists _, _, (series_min (base_elevations gl l)). split.
  { unfold shows. rewrite (left_pane_selected _ _ _ _ Hsel Hb Hrows Hfin).
    reflexivity. }
  destruct (finite_limits_has_number _ _ Hfin) as (x & Hx & Hnx).
  destruct (series_min_least _ _ Hx Hnx) as (_ & Hm & Hle).
  split; [|split].
  - by rewrite ylims_draw.
  - unfold base_elevations in Hm. apply in_map_iff in Hm as (r & Hr & Hin).
    by exists r.
  - intros r Hr Hn. apply Hle; [|done].
    unfold base_elevations.
    by apply (in_map (fun r => (gl - Litho.BASE_BG r)%float)).
Qed.

Lemma limits_are_least_base_and_ground_level_witness :
  exists fig shown m,
    shows loca_data (left_pane loca_data litho_data "BH03") fig shown /\
    ylims_of fig = [ ((m - 0.5)%float, (46.0 + 0.5)%float) ] /\
    (exists r, In r (intervals_of litho_data "BH03") /\
               m = (46.0 - Litho.BASE_BG r)%float) /\
    forall r, In r (intervals_of litho_data "BH03") ->
      is_nan (46.0 - Litho.BASE_BG r)%float = false ->
      (m <=? 46.0 - Litho.BASE_BG r)%float = true.
Proof.
  apply (limits_are_least_base_and_ground_level loca_data litho_data "BH03"
           (Loca.mk "BH03" 46.0 551500 181000));
    [ discriminate | reflexivity | discriminate | vm_compute; reflexivity ].
Defined.

(** X7: for every rendered selection whose lower limit is below the
    upper one, and whose limits matplotlib keeps as they are given (they
    are not so close that it widens them), the calls of the chart leave
    the axis with [ground_level + 0.5] at its bottom edge and the least
    base elevation less 0.5 at its top edge. *)
Theorem inverted_axis_has_ground_level_at_bottom
    loca_df litho_df sel borehole :
  sel <> "" ->
  iloc0 (loca_rows loca_df sel) = Ok borehole ->
  litho_rows litho_df sel <> [] ->
  finite_limits (Loca.LOCA_GL borehole) (intervals_of litho_df sel) = true ->
  (series_min (base_elevations (Loca.LOCA_GL borehole)
                 (intervals_of litho_df sel)) - 0.5
   <? Loca.LOCA_GL borehole + 0.5)%float = true ->
  widened
    (series_min (base_elevations (Loca.LOCA_GL borehole)
                   (intervals_of litho_df sel)) - 0.5)%float
    (Loca.LOCA_GL borehole + 0.5)%float = false ->
  exists fig shown,
    shows loca_df (left_pane loca_df litho_df sel) fig shown /\
    get_ylim fig =
      ((Loca.LOCA_GL borehole + 0.5)%float,
       (series_min (base_elevations (Loca.LOCA_GL borehole)
                      (intervals_of litho_df sel)) - 0.5)%float) /\
    (snd (get_ylim fig) <? fst (get_ylim fig))%float = true.
Proof.
  intros Hsel Hb Hrows Hfin Hlt _. eexists _, _. split.
  { unfold shows. rewrite (left_pane_selected _ _ _ _ Hsel Hb Hrows Hfin).
    reflexivity. }
  rewrite (get_ylim_chart _ _ Hlt). by split.
Qed.

Lemma inverted_axis_has_ground_level_at_bottom_witness :
  exists fig shown,
    shows loca_data (left_pane loca_data litho_data "BH02") fig shown /\
    get_ylim fig =
      ((48.5 + 0.5)%float,
       (series_min (base_elevations 48.5 (intervals_of litho_data "BH02"))
        - 0.5)%float) /\
    (snd (get_ylim fig) <? fst (get_ylim fig))%float = true.
Proof.
  apply (inverted_axis_has_ground_level_at_bottom loca_data litho_data "BH02"
           (Loca.mk "BH02" 48.5 552000 180500));
    [ discriminate | reflexivity | discriminate | vm_compute; reflexivity
    | vm_compute; reflexivity | vm_compute; reflexivity ].
Defined.

(** ** Which rows of the tables a run reads *)

Section RowsRead.

Lemma loca_rows_first pre b post sel :
  Loca.LOCA_ID b = sel ->
  Forall (fun r => Loca.LOCA_ID r <> sel) pre ->
  iloc0 (loca_rows (pre ++ b :: post) sel) = Ok b.
Proof.
  intros Hb Hpre. unfold loca_rows. rewrite List.filter_app.
  rewrite (filter_none (fun r => String.eqb (Loca.LOCA_ID r) sel) pre).
  - cbn. apply String.eqb_eq in Hb. by rewrite Hb.
  - eapply Forall_impl; [exact Hpre|]. intros r Hr.
    by apply String.eqb_neq.
Qed.

Lemma litho_rows_idem litho_df sel :
  litho_rows (litho_rows litho_df sel) sel = litho_rows litho_df sel.
Proof.
  unfold litho_rows. apply filter_all, List.Forall_forall.
  intros r Hr. by apply filter_In in Hr as [_ Hr].
Qed.

Lemma litho_rows_app l1 l2 sel :
  litho_rows (l1 ++ l2) sel = litho_rows l1 sel ++ litho_rows l2 sel.
Proof. apply List.filter_app. Qed.

Lemma litho_rows_others extra sel :
  Forall (fun r => Litho.LOCA_ID r <> sel) extra -> litho_rows extra sel = [].
Proof.
  intros H. apply filter_none. eapply Forall_impl; [exact H|].
  intros r Hr. by apply String.eqb_neq.
Qed.

Lemma left_pane_same_rows loca_df l1 l2 sel :
  litho_rows l1 sel <> [] ->
  litho_rows l1 sel = litho_rows l2 sel ->
  left_pane loca_df l1 sel = left_pane loca_df l2 sel.
Proof.
  intros Hne H. unfold left_pane, intervals_of.
  rewrite (getitem_nonempty _ (litho_rows_nonempty _ _ Hne)).
  rewrite H in Hne.
  rewrite (getitem_nonempty _ (litho_rows_nonempty _ _ Hne)).
  by rewrite H.
Qed.

End RowsRead.

(** X8: when several rows of the location table carry the selected id,
    the ground level of the first of them in table order is the one the
    chart and the table are computed from. *)
Theorem first_location_row_gives_ground_level
    pre b post litho_df sel :
  sel <> "" ->
  Loca.LOCA_ID b = sel ->
  Forall (fun r => Loca.LOCA_ID r <> sel) pre ->
  litho_rows litho_df sel <> [] ->
  finite_limits (Loca.LOCA_GL b) (intervals_of litho_df sel) = true ->
  left_pane (pre ++ b :: post) litho_df sel =
    Ok (detail_calls (pre ++ b :: post) (Loca.LOCA_GL b)
          (intervals_of litho_df sel)).
Proof.
  intros Hsel Hb Hpre Hrows Hfin.
  apply left_pane_selected; [done| |done|done].
  by apply loca_rows_first.
Qed.

Lemma first_location_row_gives_ground_level_witness :
  left_pane
    ([Loca.mk "BH02" 48.5 552000 180500]
     ++ Loca.mk "BH01" 50.0 551000 180000
        :: [Loca.mk "BH01" 99.0 551000 180000]) litho_data "BH01" =
    Ok (detail_calls
          ([Loca.mk "BH02" 48.5 552000 180500]
           ++ Loca.mk "BH01" 50.0 551000 180000
              :: [Loca.mk "BH01" 99.0 551000 180000])
          50.0 (intervals_of litho_data "BH01")).
Proof.
  apply (first_location_row_gives_ground_level
           [Loca.mk "BH02" 48.5 552000 180500]
           (Loca.mk "BH01" 50.0 551000 180000)
           [Loca.mk "BH01" 99.0 551000 180000] litho_data "BH01");
    [ discriminate | reflexivity | repeat constructor; discriminate
    | discriminate | vm_compute; reflexivity ].
Defined.

(** X9: for a selection that has rows in the lithology table, a run
    reads that table through those rows only: it is the run over those
    rows alone, and rows of other locations put before or after the
    table change nothing. *)
Theorem other_locations_rows_do_not_matter
    (loca_df : list Loca.row) (litho_df : list Litho.row) (sel : string) :
  litho_rows litho_df sel <> [] ->
  left_pane loca_df litho_df sel =
    left_pane loca_df (litho_rows litho_df sel) sel /\
  forall extra,
    Forall (fun r => Litho.LOCA_ID r <> sel) extra ->
    left_pane loca_df (litho_df ++ extra) sel = left_pane loca_df litho_df sel /\
    left_pane loca_df (extra ++ litho_df) sel = left_pane loca_df litho_df sel.
Proof.
  intros Hne. split.
  - apply left_pane_same_rows; [done|]. by rewrite litho_rows_idem.
  - intros extra Hextra.
    assert (litho_rows (litho_df ++ extra) sel = litho_rows litho_df sel)
      as Hafter.
    { rewrite litho_rows_app, (litho_rows_others _ _ Hextra).
      apply app_nil_r. }
    assert (litho_rows (extra ++ litho_df) sel = litho_rows litho_df sel)
      as Hbefore.
    { by rewrite litho_rows_app, (litho_rows_others _ _ Hextra). }
    split; apply left_pane_same_rows; by rewrite ?Hafter, ?Hbefore.
Qed.

Lemma other_locations_rows_do_not_matter_witness :
  left_pane loca_data litho_data "BH02" =
    left_pane loca_data (litho_rows litho_data "BH02") "BH02" /\
  forall extra,
    Forall (fun r => Litho.LOCA_ID r <> "BH02") extra ->
    left_pane loca_data (litho_data ++ extra) "BH02"
      = left_pane loca_data litho_data "BH02" /\
    left_pane loca_data (extra ++ litho_data) "BH02"
      = left_pane loca_data litho_data "BH02".
Proof.
  apply (other_locations_rows_do_not_matter loca_data litho_data "BH02").
  discriminate.
Defined.

(** ** The page *)

Section PageFacts.

Variable transform : Z -> Z -> float * float.
Variable mean : list float -> float.

Lemma decks_of_app l1 l2 : decks_of (l1 ++ l2) = decks_of l1 ++ decks_of l2.
Proof.
  induction l1 as [|c t IH]; [done|]. destruct c; cbn; by rewrite ?IH.
Qed.

Lemma controls_of_app l1 l2 :
  controls_of (l1 ++ l2) = controls_of l1 ++ controls_of l2.
Proof.
  induction l1 as [|c t IH]; [done|].
  destruct c as [| | | | | |[]]; cbn; by rewrite ?IH.
Qed.

Lemma decks_of_left l : decks_of (map left_call l) = [].
Proof. induction l as [|c t IH]; [done|]. exact IH. Qed.

Lemma left_pane_log_calls loca_df litho_df sel :
  exists rest,
    fst (left_pane_log loca_df litho_df sel) = head_calls loca_df ++ rest /\
    controls_of (map left_call rest) = [].
Proof.
  unfold left_pane_log.
  destruct (truthy sel); [|by eexists].
  destruct (iloc0 (loca_rows loca_df sel)) as [b|e]; [|by exists []].
  destruct (getitem litho_df) as [rows|e]; [|by exists []].
  destruct (empty_df (intervals_of litho_df sel)); [by eexists|].
  cbn [negb].
  destruct (chart (Loca.LOCA_GL b) (intervals_of litho_df sel)) as [fig|e];
    [|by exists []].
  destruct (select _ _) as [shown|e]; by eexists.
Qed.

Lemma with_latlon_ok loca_df :
  loca_df <> [] ->
  exists geo_df,
    with_latlon transform loca_df = Ok geo_df /\
    map Geo.loca geo_df = loca_df /\
    map position_of geo_df =
      map (fun row => transform (Loca.EASTING row) (Loca.NORTHING row)) loca_df.
Proof.
  intros Hne. unfold with_latlon. destruct loca_df as [|r0 t0]; [done|].
  eexists. split; [reflexivity|].
  generalize (r0 :: t0). intros l. unfold grid_to_latlon, position_of.
  split; (induction l as [|r t IH]; [done|]); cbn [map];
    rewrite IH; by destruct (transform _ _).
Qed.

Lemma script_calls loca_df litho_df sel geo_df :
  with_latlon transform loca_df = Ok geo_df ->
  fst (script transform mean loca_df litho_df sel) =
  [ set_page_config "wide";
    title "Harwich Formation Lithological Analysis";
    st_columns [1; 2]%Z ]
  ++ right_pane mean geo_df
  ++ map left_call (fst (left_pane_log loca_df litho_df sel)).
Proof.
  intros H. unfold script. rewrite H.
  by destruct (left_pane_log loca_df litho_df sel).
Qed.

End PageFacts.

(** X11: for a location table that has rows, whatever is selected, and
    also when the left column fails, the page holds one map with one
    layer; its points are the rows of the location table in table order,
    and the position read for each point is the pair the transformer
    gives for the easting and northing of the row: the swap in
    [grid_to_latlon] and the accessor [[LON, LAT]] cancel. *)
Theorem marker_positions_are_transformer_output
    (transform : Z -> Z -> float * float) (mean : list float -> float)
    (loca_df : list Loca.row) (litho_df : list Litho.row) (sel : string) :
  loca_df <> [] ->
  exists deck layer,
    decks_of (fst (script transform mean loca_df litho_df sel)) = [deck] /\
    layers deck = [layer] /\
    get_position layer = "[LON, LAT]" /\
    map Geo.loca (layer_data layer) = loca_df /\
    map position_of (layer_data layer) =
      map (fun row => transform (Loca.EASTING row) (Loca.NORTHING row)) loca_df.
Proof.
  intros Hne.
  destruct (with_latlon_ok transform loca_df Hne) as (geo & Hgeo & Hl & Hp).
  eexists _, _.
  rewrite (script_calls _ _ _ _ _ _ Hgeo), !decks_of_app, decks_of_left.
  cbn [decks_of right_pane List.app layers layer_data get_position].
  by repeat split.
Qed.

Lemma marker_positions_are_transformer_output_witness :
  exists deck layer,
    decks_of (fst (script (fun e n => (0.05, 51.5)%float) (fun _ => 0%float)
                     loca_data litho_data "BH09")) = [deck] /\
    layers deck = [layer] /\
    get_position layer = "[LON, LAT]" /\
    map Geo.loca (layer_data layer) = loca_data /\
    map position_of (layer_data layer) =
      map (fun row =>
             (fun e n => (0.05, 51.5)%float)
               (Loca.EASTING row) (Loca.NORTHING row)) loca_data.
Proof.
  apply (marker_positions_are_transformer_output
           (fun e n => (0.05, 51.5)%float) (fun _ => 0%float)
           loca_data litho_data "BH09").
  discriminate.
Defined.

(** X12: for a location table that has rows, whatever is selected, and
    also when the left column fails, the page holds one selection
    control, and its options are the blank option followed by the
    location ids of the points of the map, in the order of the points. *)
Theorem control_offers_the_map_points
    (transform : Z -> Z -> float * float) (mean : list float -> float)
    (loca_df : list Loca.row) (litho_df : list Litho.row) (sel : string) :
  loca_df <> [] ->
  exists deck layer,
    decks_of (fst (script transform mean loca_df litho_df sel)) = [deck] /\
    layers deck = [layer] /\
    controls_of (fst (script transform mean loca_df litho_df sel)) =
      [ "" :: map (fun r => Loca.LOCA_ID (Geo.loca r)) (layer_data layer) ].
Proof.
  intros Hne.
  destruct (with_latlon_ok transform loca_df Hne) as (geo & Hgeo & Hl & Hp).
  eexists _, _.
  rewrite (script_calls _ _ _ _ _ _ Hgeo), !decks_of_app, decks_of_left.
  cbn [decks_of right_pane List.app layers layer_data].
  split; [reflexivity|]. split; [reflexivity|].
  destruct (left_pane_log_calls loca_df litho_df sel) as (rest & -> & Hrest).
  cbn [controls_of]. rewrite map_app, controls_of_app, Hrest.
  cbn. unfold options.
  by rewrite <- (map_map Geo.loca Loca.LOCA_ID), Hl.
Qed.

Lemma control_offers_the_map_points_witness :
  exists deck layer,
    decks_of (fst (script (fun e n => (0.05, 51.5)%float) (fun _ => 0%float)
                     loca_data [] "BH01")) = [deck] /\
    layers deck = [layer] /\
    controls_of (fst (script (fun e n => (0.05, 51.5)%float)
                        (fun _ => 0%float) loca_data [] "BH01")) =
      [ "" :: map (fun r => Loca.LOCA_ID (Geo.loca r)) (layer_data layer) ].
Proof.
  apply (control_offers_the_map_points
           (fun e n => (0.05, 51.5)%float) (fun _ => 0%float)
           loca_data [] "BH01").
  discriminate.
Defined.

(** ** Missing base depths *)

Lemma sub_nan_r (x y : float) : is_nan y = true -> is_nan (x - y)%float = true.
Proof.
  intros H. apply Prim2SF_nan_is_nan.
  rewrite sub_spec, (is_nan_true _ H). by destruct (Prim2SF x).
Qed.

Lemma series_min_all_nan s :
  Forall (fun x => is_nan x = true) s -> series_min s = nan.
Proof.
  intros H. unfold series_min. rewrite filter_none; [done|].
  eapply Forall_impl; [exact H|]. by intros x ->.
Qed.

(** X13: when no interval of the selected location has a base depth
    (all are NaN), the least base elevation is NaN and the run raises
    [ValueError] instead of drawing the chart. *)
Theorem missing_base_depths_raise loca_df litho_df sel borehole :
  sel <> "" ->
  iloc0 (loca_rows loca_df sel) = Ok borehole ->
  litho_rows litho_df sel <> [] ->
  Forall (fun r => is_nan (Litho.BASE_BG r) = true) (litho_rows litho_df sel) ->
  series_min (base_elevations (Loca.LOCA_GL borehole)
                (intervals_of litho_df sel)) = nan /\
  left_pane loca_df litho_df sel = Raise ValueError.
Proof.
  intros Hsel Hb Hrows Hnan.
  assert (series_min (base_elevations (Loca.LOCA_GL borehole)
                        (intervals_of litho_df sel)) = nan) as Hmin.
  { apply series_min_all_nan. unfold base_elevations.
    apply Forall_map.
    assert (Forall (fun r => is_nan (Litho.BASE_BG r) = true)
              (intervals_of litho_df sel)) as H.
    { eapply Permutation_Forall; [|exact Hnan].
      symmetry. apply sort_values_perm. }
    eapply Forall_impl; [exact H|]. intros r Hr. by apply sub_nan_r. }
  split; [done|].
  apply (left_pane_bad_limits _ _ _ borehole); [done..|].
  unfold finite_limits. rewrite Hmin. reflexivity.
Qed.

Lemma missing_base_depths_raise_witness :
  series_min (base_elevations 50.0
                (intervals_of [Litho.mk "BH01" 0 nan "HWH_CLAY" "clay"] "BH01"))
    = nan /\
  left_pane loca_data [Litho.mk "BH01" 0 nan "HWH_CLAY" "clay"] "BH01"
    = Raise ValueError.
Proof.
  apply (missing_base_depths_raise loca_data
           [Litho.mk "BH01" 0 nan "HWH_CLAY" "clay"] "BH01"
           (Loca.mk "BH01" 50.0 551000 180000));
    [ discriminate | reflexivity | discriminate
    | repeat constructor ].
Defined.
